(** * Kuber AI gold workflow: a shallow embedding of [kuber_ai_gold_workflow.py]

    The development follows the layout of the Python file: configuration,
    the two SQLite tables, the keyword classifier, the storage helpers and
    the HTTP endpoints; the theorems come after all definitions.

    Modelling conventions.
    - Python [str] values are [string]s; [str.lower] maps the letters
      [A]..[Z] to [a]..[z] and leaves every other character alone.
    - Python [float] / SQLite [REAL] values are exact rationals ([Q]):
      the arithmetic of the source ([-], [+], [/], [<], [<=], [round]) is
      read as exact arithmetic, so rounding of binary floating point,
      infinities and NaN are outside the model.  [round x 6] is Python's
      round-half-to-even at six decimals.
    - Python [int] / SQLite [INTEGER] values are [Z].
    - A nullable column is an [option]; [initial_deposit] is
      [Optional[float]] in the request model, so a balance can be [None].
    - The database file is an explicit state [db] threaded through a small
      state-and-exception monad; a raised exception leaves the state as
      committed so far.
    - The UTC clock read by [update_user_gold_and_balance] is an input of the
      purchase request. *)

From Stdlib Require Import List String Ascii Bool ZArith QArith Qround Lia.
From Stdlib Require Import Sorting.Sorted Sorting.Permutation Lqa.
Import ListNotations.

Set Implicit Arguments.

(** ** Text *)

Module Text.

Local Open Scope string_scope.

(** [c.lower()] on a single character. *)
Definition lower_ascii (c : ascii) : ascii :=
  let n := nat_of_ascii c in
  if andb (Nat.leb 65 n) (Nat.leb n 90) then ascii_of_nat (n + 32) else c.

(** [c.upper()] on a single character. *)
Definition upper_ascii (c : ascii) : ascii :=
  let n := nat_of_ascii c in
  if andb (Nat.leb 97 n) (Nat.leb n 122) then ascii_of_nat (n - 32) else c.

(** [text.lower()] *)
Fixpoint lower (s : string) : string :=
  match s with
  | EmptyString => EmptyString
  | String c s' => String (lower_ascii c) (lower s')
  end.

(** [text.upper()] *)
Fixpoint upper (s : string) : string :=
  match s with
  | EmptyString => EmptyString
  | String c s' => String (upper_ascii c) (upper s')
  end.

(** [s.startswith(kw)] *)
Fixpoint starts_with (kw s : string) : bool :=
  match kw, s with
  | EmptyString, _ => true
  | String _ _, EmptyString => false
  | String a kw', String b s' => if Ascii.eqb a b then starts_with kw' s' else false
  end.

(** [kw in s]: [kw] starts at some position of [s]. *)
Fixpoint contains (kw s : string) : bool :=
  if starts_with kw s then true
  else match s with
       | EmptyString => false
       | String _ s' => contains kw s'
       end.

(** The declarative reading of [kw in s]. *)
Definition occurs_in (kw s : string) : Prop :=
  exists pre post, s = pre ++ kw ++ post.

(** Two texts that differ at most in the case of their letters. *)
Inductive same_up_to_case : string -> string -> Prop :=
| sutc_nil : same_up_to_case EmptyString EmptyString
| sutc_cons a b s t :
    lower_ascii a = lower_ascii b -> same_up_to_case s t ->
    same_up_to_case (String a s) (String b t).

End Text.

(** ** Simple LLM emulation *)

Local Open Scope string_scope.

Definition GOLD_KEYWORDS : list string :=
  [ "gold";
    "digital gold";
    "invest in gold";
    "buy gold";
    "gold investment";
    "is gold safe";
    "should i buy gold" ].

Definition CANNED_FACTS : string :=
  "Gold is traditionally considered a hedge against inflation and currency depreciation. "
  ++ "It tends to preserve value over long periods, though short-term price movements can be volatile.".

(** The [for kw in GOLD_KEYWORDS] loop of [query_is_about_gold], with its
    early [return True]. *)
Fixpoint any_keyword_in (kws : list string) (text_lower : string) : bool :=
  match kws with
  | [] => false
  | kw :: rest =>
      if Text.contains kw text_lower then true else any_keyword_in rest text_lower
  end.

Definition query_is_about_gold (text : string) : bool :=
  let text_lower := Text.lower text in
  any_keyword_in GOLD_KEYWORDS text_lower.

Definition call_llm (prompt : string) : string :=
  "(LLM placeholder) " ++ prompt.

(** ** Numbers *)

Module Num.

Local Open Scope Q_scope.

(** Python's [x < y] on numbers. *)
Definition ltb (x y : Q) : bool := negb (Qle_bool y x).

(** Python's [x <= y] on numbers. *)
Definition leb (x y : Q) : bool := Qle_bool x y.

(** Nearest integer, ties to the even neighbour. *)
Definition round_half_even (x : Q) : Z :=
  let f := Qfloor x in
  match Qcompare (x - inject_Z f) (1 # 2) with
  | Lt => f
  | Gt => (f + 1)%Z
  | Eq => if Z.even f then f else (f + 1)%Z
  end.

(** [10 ** ndigits] *)
Definition scale (ndigits : nat) : positive := Z.to_pos (10 ^ Z.of_nat ndigits).

(** Python's [round(x, ndigits)] for a number of decimals [ndigits >= 0]:
    scale, round to the nearest integer with ties to even, scale back. *)
Definition round (x : Q) (ndigits : nat) : Q :=
  Qmake (round_half_even (x * inject_Z (Zpos (scale ndigits)))) (scale ndigits).

(** SQL arithmetic on a nullable [REAL]: [NULL] is absorbing. *)
Definition sql_sub (x : option Q) (y : Q) : option Q := option_map (fun v => v - y) x.
Definition sql_add (x : option Q) (y : Q) : option Q := option_map (fun v => v + y) x.

End Num.

(** ** Configuration *)

(** Hardcoded gold rate (INR per gram). *)
Definition GOLD_RATE_PER_GRAM : Q := 6000.

(** ** The database: tables [users] and [purchases] *)

Module Users.
(** A row of [users]; [balance] and [gold_grams] are nullable [REAL]s. *)
Record row : Type := mk {
  user_id : Z;
  name : string;
  balance : option Q;
  gold_grams : option Q
}.
End Users.

Module Purchases.
(** A row of [purchases]; every column is [NOT NULL]. *)
Record row : Type := mk {
  purchase_id : Z;
  user_id : Z;
  amount_inr : Q;
  grams : Q;
  timestamp : string
}.
End Purchases.

(** The content of [data.db]; each table lists its rows in insertion order. *)
Record db : Type := mkdb {
  users : list Users.row;
  purchases : list Purchases.row
}.

(** [init_db] on a missing file: both tables exist and are empty. *)
Definition init_db : db := {| users := []; purchases := [] |}.

(** [INTEGER PRIMARY KEY AUTOINCREMENT]: one more than the largest rowid
    used so far, starting at 1.  No operation deletes a row, so the largest
    rowid ever used is the largest one in the table. *)
Definition next_rowid (ids : list Z) : Z := (1 + fold_right Z.max 0 ids)%Z.

(** ** Exceptions and the handler monad *)

(** A piece of an f-string: literal text or an interpolated value. *)
Inductive frag : Type :=
| Lit (s : string)
| FloatVal (x : option Q)
| IntVal (n : Z).

Inductive exn : Type :=
| HTTPException (status_code : Z) (detail : list frag)
| TypeError.

Inductive result (A : Type) : Type :=
| Ok (a : A)
| Raised (e : exn).
Arguments Raised {A} e.

(** A handler reads and writes the database and either returns or raises. *)
Definition M (A : Type) : Type := db -> result A * db.

Definition ret {A} (a : A) : M A := fun s => (Ok a, s).

Definition raise {A} (e : exn) : M A := fun s => (Raised e, s).

Definition bind {A B} (m : M A) (k : A -> M B) : M B :=
  fun s =>
    match m s with
    | (Ok a, s') => k a s'
    | (Raised e, s') => (Raised e, s')
    end.

Declare Scope handler_scope.
Delimit Scope handler_scope with handler.
Notation "x <- m ;; k" := (bind m (fun x => k))
  (at level 61, m at next level, right associativity) : handler_scope.
Notation "m ;;; k" := (bind m (fun _ => k))
  (at level 61, right associativity) : handler_scope.

Definition response_of {A} (r : result A * db) : result A := fst r.
Definition state_of {A} (r : result A * db) : db := snd r.

(** ** Request and response models *)

Module CreateUserRequest.
(** [initial_deposit: Optional[float] = 0.0]: a body without the field is
    [Some 0], an explicit [null] is [None]. *)
Record t : Type := mk { name : string; initial_deposit : option Q }.
End CreateUserRequest.

Module GoldAssistantRequest.
Record t : Type := mk { user_id : Z; query : string }.
End GoldAssistantRequest.

Module PurchaseRequest.
Record t : Type := mk { user_id : Z; amount_inr : Q }.
End PurchaseRequest.

Module CreateUserResponse.
Record t : Type := mk {
  status : string;
  user_id : Z;
  name : string;
  balance : option Q
}.
End CreateUserResponse.

Module GetUserResponse.
Record t : Type := mk { user : Users.row; purchases : list Purchases.row }.
End GetUserResponse.

Module GoldAssistantResponse.
(** The two dictionaries [gold_assistant] returns; a key that is absent
    from the first one is [None]. *)
Record t : Type := mk {
  response : string;
  nudge : option string;
  next_step : option string;
  is_gold_query : bool
}.
End GoldAssistantResponse.

Module PurchaseResponse.
Record purchase_t : Type := mk_purchase { amount_inr : Q; grams : Q }.
Record t : Type := mk {
  status : string;
  message : list frag;
  purchase : purchase_t;
  updated_profile : option Users.row;
  purchases : list Purchases.row
}.
End PurchaseResponse.

(** ** Helper functions *)

Local Open Scope handler_scope.

(** [SELECT * FROM users WHERE user_id = ?] followed by [fetchone]. *)
Definition get_user (user_id : Z) : M (option Users.row) :=
  fun s => (Ok (find (fun u => Z.eqb (Users.user_id u) user_id) (users s)), s).

(** The [UPDATE users SET ... WHERE user_id = ?] statement on one row. *)
Definition update_row (user_id : Z) (grams amount_inr : Q) (u : Users.row) : Users.row :=
  if Z.eqb (Users.user_id u) user_id
  then {| Users.user_id := Users.user_id u;
          Users.name := Users.name u;
          Users.balance := Num.sql_sub (Users.balance u) amount_inr;
          Users.gold_grams := Num.sql_add (Users.gold_grams u) grams |}
  else u.

(** Decrement balance and increment gold_grams, then insert the purchase
    record; [utcnow] is [datetime.datetime.utcnow().isoformat()]. *)
Definition update_user_gold_and_balance
    (user_id : Z) (grams amount_inr : Q) (utcnow : string) : M unit :=
  fun s =>
    let users' := map (update_row user_id grams amount_inr) (users s) in
    let record :=
      {| Purchases.purchase_id := next_rowid (map Purchases.purchase_id (purchases s));
         Purchases.user_id := user_id;
         Purchases.amount_inr := amount_inr;
         Purchases.grams := grams;
         Purchases.timestamp := utcnow |} in
    (Ok tt, {| users := users'; purchases := purchases s ++ [record] |}).

(** [ORDER BY purchase_id DESC]: insertion into a list sorted by
    descending [purchase_id]. *)
Fixpoint insert_desc (r : Purchases.row) (l : list Purchases.row) : list Purchases.row :=
  match l with
  | [] => [r]
  | x :: l' =>
      if Z.ltb (Purchases.purchase_id x) (Purchases.purchase_id r)
      then r :: l
      else x :: insert_desc r l'
  end.

Definition order_by_purchase_id_desc (l : list Purchases.row) : list Purchases.row :=
  fold_right insert_desc [] l.

(** [SELECT * FROM purchases WHERE user_id = ? ORDER BY purchase_id DESC] *)
Definition get_purchases_for_user (user_id : Z) : M (list Purchases.row) :=
  fun s =>
    (Ok (order_by_purchase_id_desc
           (filter (fun p => Z.eqb (Purchases.user_id p) user_id) (purchases s))),
     s).

(** ** API endpoints *)

Definition create_user (req : CreateUserRequest.t) : M CreateUserResponse.t :=
  fun s =>
    let user_id := next_rowid (map Users.user_id (users s)) in
    let row :=
      {| Users.user_id := user_id;
         Users.name := CreateUserRequest.name req;
         Users.balance := CreateUserRequest.initial_deposit req;
         Users.gold_grams := Some 0%Q |} in
    (Ok {| CreateUserResponse.status := "success";
           CreateUserResponse.user_id := user_id;
           CreateUserResponse.name := CreateUserRequest.name req;
           CreateUserResponse.balance := CreateUserRequest.initial_deposit req |},
     {| users := users s ++ [row]; purchases := purchases s |}).

Definition get_user_endpoint (user_id : Z) : M GetUserResponse.t :=
  user <- get_user user_id ;;
  match user with
  | None => raise (HTTPException 404 [Lit "User not found"])
  | Some user =>
      purchases <- get_purchases_for_user user_id ;;
      ret {| GetUserResponse.user := user; GetUserResponse.purchases := purchases |}
  end.

Definition gold_assistant (req : GoldAssistantRequest.t) : M GoldAssistantResponse.t :=
  (* verify user exists *)
  user <- get_user (GoldAssistantRequest.user_id req) ;;
  match user with
  | None => raise (HTTPException 404 [Lit "User not found"])
  | Some _ =>
      (* check if query is about gold *)
      let is_gold := query_is_about_gold (GoldAssistantRequest.query req) in
      if negb is_gold then
        let response :=
          "I couldn't detect that your question is about gold investment. "
          ++ "If you want to learn about gold investments, try asking 'Should I invest in gold?' or 'How to buy digital gold?'" in
        ret {| GoldAssistantResponse.response := response;
               GoldAssistantResponse.nudge := None;
               GoldAssistantResponse.next_step := None;
               GoldAssistantResponse.is_gold_query := false |}
      else
        let fact_answer := CANNED_FACTS in
        let nudge :=
          "If you'd like, I can help you invest in digital gold through the Simplify Money flow. "
          ++ "A small test purchase (e.g., ₹10) is a great way to see how it works. Would you like to proceed?" in
        ret {| GoldAssistantResponse.response := fact_answer;
               GoldAssistantResponse.nudge := Some nudge;
               GoldAssistantResponse.next_step := Some "/purchase-gold";
               GoldAssistantResponse.is_gold_query := true |}
  end.

Definition purchase_gold (req : PurchaseRequest.t) (utcnow : string) : M PurchaseResponse.t :=
  let user_id := PurchaseRequest.user_id req in
  let amount_inr := PurchaseRequest.amount_inr req in
  (* verify user exists *)
  user <- get_user user_id ;;
  match user with
  | None => raise (HTTPException 404 [Lit "User not found"])
  | Some user =>
      if Num.leb amount_inr 0 then
        raise (HTTPException 400 [Lit "Amount must be greater than 0"])
      else
        (* check balance; [None < float] is a [TypeError] *)
        match Users.balance user with
        | None => raise TypeError
        | Some balance =>
            if Num.ltb balance amount_inr then
              raise (HTTPException 400
                       [Lit "Insufficient balance. Available: ";
                        FloatVal (Users.balance user)])
            else
              (* calculate grams using hardcoded rate *)
              let grams := Num.round (amount_inr / GOLD_RATE_PER_GRAM) 6 in
              (* update db *)
              update_user_gold_and_balance user_id grams amount_inr utcnow ;;;
              updated_user <- get_user user_id ;;
              purchases <- get_purchases_for_user user_id ;;
              ret {| PurchaseResponse.status := "success";
                     PurchaseResponse.message :=
                       [Lit "Successfully purchased gold worth ₹"; FloatVal (Some amount_inr);
                        Lit " ("; FloatVal (Some grams); Lit " g) for user_id: ";
                        IntVal user_id];
                     PurchaseResponse.purchase :=
                       {| PurchaseResponse.amount_inr := amount_inr;
                          PurchaseResponse.grams := grams |};
                     PurchaseResponse.updated_profile := updated_user;
                     PurchaseResponse.purchases := purchases |}
        end
  end.

Definition root : M string :=
  ret "Kuber AI Gold Workflow API running. See /docs for Swagger UI.".

(** ** The HTTP surface as a transition system *)

Inductive request : Type :=
| POST_create_user (req : CreateUserRequest.t)
| GET_get_user (user_id : Z)
| POST_gold_assistant (req : GoldAssistantRequest.t)
| POST_purchase_gold (req : PurchaseRequest.t) (utcnow : string)
| GET_root.

Inductive response : Type :=
| CreateUserR (r : CreateUserResponse.t)
| GetUserR (r : GetUserResponse.t)
| GoldAssistantR (r : GoldAssistantResponse.t)
| PurchaseR (r : PurchaseResponse.t)
| RootR (r : string).

Definition fmap {A B} (f : A -> B) (m : M A) : M B := a <- m ;; ret (f a).

(** Dispatch of one request to its endpoint. *)
Definition handle (r : request) : M response :=
  match r with
  | POST_create_user req => fmap CreateUserR (create_user req)
  | GET_get_user user_id => fmap GetUserR (get_user_endpoint user_id)
  | POST_gold_assistant req => fmap GoldAssistantR (gold_assistant req)
  | POST_purchase_gold req utcnow => fmap PurchaseR (purchase_gold req utcnow)
  | GET_root => fmap RootR root
  end.

(** Serving a list of requests one after the other: the responses, oldest
    first, and the final database. *)
Fixpoint serve (reqs : list request) (s : db) : list (result response) * db :=
  match reqs with
  | [] => ([], s)
  | r :: reqs' =>
      let (out, s') := handle r s in
      let (outs, s'') := serve reqs' s' in
      (out :: outs, s'')
  end.

(** The states the service can be in: those reached from the fresh
    database by serving requests. *)
Inductive reachable : db -> Prop :=
| reachable_init : reachable init_db
| reachable_step s r : reachable s -> reachable (state_of (handle r s)).

(** ** Vocabulary of the properties *)

(** The error taxonomy, as the HTTP exceptions [purchase_gold] and
    [gold_assistant] raise. *)
Definition UserNotFound : exn := HTTPException 404 [Lit "User not found"].
Definition InvalidAmount : exn := HTTPException 400 [Lit "Amount must be greater than 0"].
Definition InsufficientBalance (available : option Q) : exn :=
  HTTPException 400 [Lit "Insufficient balance. Available: "; FloatVal available].

(** The account [user_id] resolves to, if any. *)
Definition account (s : db) (user_id : Z) : option Users.row :=
  find (fun u => Z.eqb (Users.user_id u) user_id) (users s).

(** What [listPurchases] shows of a ledger row: its cash and gold legs. *)
Definition legs (p : Purchases.row) : Q * Q :=
  (Purchases.amount_inr p, Purchases.grams p).

(** [get_purchases_for_user] as a function of the state. *)
Definition listPurchases (s : db) (user_id : Z) : list Purchases.row :=
  order_by_purchase_id_desc
    (filter (fun p => Z.eqb (Purchases.user_id p) user_id) (purchases s)).

(** No balance is below zero ([NULL] is not a number below zero). *)
Definition balance_ok (u : Users.row) : Prop :=
  match Users.balance u with
  | Some b => (0 <= b)%Q
  | None => True
  end.

Definition balances_nonneg (s : db) : Prop := Forall balance_ok (users s).

(** A request that does not open an account with a negative deposit. *)
Definition deposit_nonneg (r : request) : Prop :=
  match r with
  | POST_create_user req =>
      match CreateUserRequest.initial_deposit req with
      | Some d => (0 <= d)%Q
      | None => True
      end
  | _ => True
  end.

(** [user_id] is the primary key of [users]. *)
Definition users_keyed (s : db) : Prop := NoDup (map Users.user_id (users s)).






(** The grams [purchase_gold] computes for a request. *)
Definition grams_of (req : PurchaseRequest.t) : Q :=
  Num.round (PurchaseRequest.amount_inr req / GOLD_RATE_PER_GRAM) 6.

(** The database a successful purchase commits. *)
Definition purchased (s : db) (req : PurchaseRequest.t) (utcnow : string) : db :=
  state_of
    (update_user_gold_and_balance (PurchaseRequest.user_id req) (grams_of req)
       (PurchaseRequest.amount_inr req) utcnow s).

(** ** Vocabulary of the storage invariants *)

(** The rows of the ledger owned by [user_id], in storage order. *)
Definition ledger_of (s : db) (user_id : Z) : list Purchases.row :=
  filter (fun p => Z.eqb (Purchases.user_id p) user_id) (purchases s).




(** The ids [1, 2, ..., n] that [AUTOINCREMENT] hands out to [n] rows. *)
Definition ids_upto (n : nat) : list Z := map Z.of_nat (seq 1 n).

(** Both tables carry the ids [1..n] in storage order. *)
Definition ids_consecutive (s : db) : Prop :=
  map Users.user_id (users s) = ids_upto (List.length (users s))
  /\ map Purchases.purchase_id (purchases s) = ids_upto (List.length (purchases s)).

(** Every ledger row points to an account (the foreign key of the schema,
    which SQLite does not enforce by itself). *)
Definition ledger_refers (s : db) : Prop :=
  Forall (fun p => exists u, account s (Purchases.user_id p) = Some u) (purchases s).



(** [purchase_id] descending, the order of [ORDER BY purchase_id DESC]. *)
Definition newer_or_same (p q : Purchases.row) : Prop :=
  (Purchases.purchase_id q <= Purchases.purchase_id p)%Z.

(** How a row of [users] may differ from an earlier version of itself. *)
Definition evolves (u u' : Users.row) : Prop :=
  Users.user_id u' = Users.user_id u
  /\ Users.name u' = Users.name u
  /\ match Users.balance u, Users.balance u' with
     | None, None => True
     | Some b, Some b' => (b' <= b)%Q
     | _, _ => False
     end
  /\ match Users.gold_grams u, Users.gold_grams u' with
     | None, None => True
     | Some g, Some g' => (g <= g')%Q
     | _, _ => False
     end.

(** Sample data: the scenario of the specification, one account opened
    with a deposit of 100. *)
Definition alice_db : db :=
  state_of (create_user (CreateUserRequest.mk "alice" (Some 100%Q)) init_db).

Definition buy (user_id : Z) (amount_inr : Q) : PurchaseRequest.t :=
  PurchaseRequest.mk user_id amount_inr.

(** The requests that can write: the two POST endpoints with an [INSERT]
    or [UPDATE]; the assistant and the two GET routes only read. *)
Definition writes (r : request) : bool :=
  match r with
  | POST_create_user _ | POST_purchase_gold _ _ => true
  | _ => false
  end.

(** The sample account after its purchase of 60, and the row that
    purchase leaves in the ledger. *)
Definition alice_bought_db : db :=
  state_of (purchase_gold (buy 1 60) "2024-01-01T00:00:00" alice_db).

Definition alice_record : Purchases.row :=
  {| Purchases.purchase_id := 1;
     Purchases.user_id := 1;
     Purchases.amount_inr := 60;
     Purchases.grams := Num.round (60 / 6000) 6;
     Purchases.timestamp := "2024-01-01T00:00:00" |}.

(** * Properties *)

(** ** The scenario of the specification *)

(** Deposit 100, purchase of 60 at rate 6000: 0.01 grams, balance 40. *)
Example scenario_first_purchase :
  response_of (get_user 1 (state_of (purchase_gold (buy 1 60) "2024-01-01T00:00:00" alice_db)))
  = Ok (Some {| Users.user_id := 1; Users.name := "alice";
                Users.balance := Some (100 - 60)%Q;
                Users.gold_grams := Some (0 + (10000 # 1000000))%Q |}).
Proof. reflexivity. Qed.

(** A second purchase of 60 is refused: the balance is [100 - 60]. *)
Example scenario_second_purchase :
  let s1 := state_of (purchase_gold (buy 1 60) "2024-01-01T00:00:00" alice_db) in
  purchase_gold (buy 1 60) "2024-01-01T00:00:01" s1
  = (Raised (InsufficientBalance (Some (100 - 60)%Q)), s1).
Proof. reflexivity. Qed.

(** After the purchases of 60 (accepted), 60 (refused) and 30 (accepted)
    the ledger of the user lists 30 before 60. *)
Example scenario_ledger :
  let run :=
    serve [POST_create_user (CreateUserRequest.mk "alice" (Some 100%Q));
           POST_purchase_gold (buy 1 60) "2024-01-01T00:00:00";
           POST_purchase_gold (buy 1 60) "2024-01-01T00:00:01";
           POST_purchase_gold (buy 1 30) "2024-01-01T00:00:02"] init_db in
  map legs (listPurchases (snd run) 1)
  = [(30%Q, (5000 # 1000000)%Q); (60%Q, (10000 # 1000000)%Q)]
  /\ map Purchases.purchase_id (listPurchases (snd run) 1) = [2%Z; 1%Z].
Proof. split; reflexivity. Qed.

(** Ties go to the even neighbour, on both sides of zero. *)
Example round_ties_to_even :
  Num.round (5 # 2) 0 = (2 # 1)%Q /\ Num.round (7 # 2) 0 = (4 # 1)%Q
  /\ Num.round (- 5 # 2) 0 = (- 2 # 1)%Q
  /\ Num.round (78125 # 10000000) 6 = (7812 # 1000000)%Q
  /\ Num.round (3 # 6000000) 6 = (0 # 1000000)%Q.
Proof. repeat split. Qed.

(** ** The classifier *)

Section Classifier.

Import Text.

Lemma starts_with_iff kw : forall s,
    starts_with kw s = true <-> exists post, s = kw ++ post.
Proof.
    induction kw as [|a kw IH]; intros s; simpl.
    - split; [intros _; exists s; reflexivity | reflexivity].
    - destruct s as [|b s]; simpl.
      + split; [discriminate | intros [post H]; discriminate].
      + destruct (Ascii.eqb_spec a b) as [->|Hab].
        * rewrite IH. split; intros [post H]; exists post.
          -- now rewrite H.
          -- now injection H.
        * split; [discriminate | intros [post H]; injection H; congruence].
Qed.

Lemma contains_iff kw : forall s, contains kw s = true <-> occurs_in kw s.
Proof.
    induction s as [|c s IH].
    - simpl. destruct (starts_with kw "") eqn:E.
      + split; [intros _ | reflexivity].
        apply starts_with_iff in E. destruct E as [post E].
        exists "", post. exact E.
      + split; [discriminate|]. intros [pre [post H]].
        destruct pre; simpl in H.
        * assert (starts_with kw "" = true) by (apply starts_with_iff; eauto).
          congruence.
        * discriminate.
    - simpl. destruct (starts_with kw (String c s)) eqn:E.
      + split; [intros _ | reflexivity].
        apply starts_with_iff in E. destruct E as [post E].
        exists "", post. exact E.
      + rewrite IH. split.
        * intros [pre [post H]]. exists (String c pre), post. simpl. now rewrite H.
        * intros [pre [post H]]. destruct pre as [|c' pre]; simpl in H.
          -- assert (starts_with kw (String c s) = true)
               by (apply starts_with_iff; eauto).
             congruence.
          -- injection H as _ H. exists pre, post. exact H.
Qed.

Lemma any_keyword_in_iff kws t :
    any_keyword_in kws t = true <-> exists kw, In kw kws /\ occurs_in kw t.
Proof.
    induction kws as [|kw kws IH]; simpl.
    - split; [discriminate | intros [kw [[] _]]].
    - destruct (contains kw t) eqn:E.
      + split; [intros _ | reflexivity].
        exists kw. split; [now left | now apply contains_iff].
      + rewrite IH. split.
        * intros [kw' [Hin Hocc]]. exists kw'. split; [now right | exact Hocc].
        * intros [kw' [[<-|Hin] Hocc]].
          -- apply contains_iff in Hocc. congruence.
          -- exists kw'. now split.
Qed.

Lemma append_assoc (a b c : string) : (a ++ b) ++ c = a ++ (b ++ c).
Proof. induction a as [|x a IH]; simpl; [reflexivity | now rewrite IH]. Qed.

Lemma same_up_to_case_lower s t : same_up_to_case s t -> lower s = lower t.
Proof. induction 1; simpl; congruence. Qed.

Lemma lower_upper_ascii c : lower_ascii (upper_ascii c) = lower_ascii c.
Proof.
    destruct c as [[] [] [] [] [] [] [] []]; reflexivity.
Qed.

Lemma same_up_to_case_upper s : same_up_to_case s (upper s).
Proof.
    induction s as [|c s IH]; simpl; constructor; auto.
    symmetry. apply lower_upper_ascii.
Qed.

End Classifier.


(** Every keyword of the list contains the word gold, so the loop over the
    list decides exactly whether the lowered text contains that word. *)
Lemma query_is_about_gold_word text :
  query_is_about_gold text = Text.contains "gold" (Text.lower text).
Proof.
  unfold query_is_about_gold, GOLD_KEYWORDS.
  destruct (Text.contains "gold" (Text.lower text)) eqn:E.
  - simpl. now rewrite E.
  - destruct (any_keyword_in _ _) eqn:A; [|reflexivity].
    apply any_keyword_in_iff in A. destruct A as [kw [Hin [pre [post H]]]].
    assert (Text.occurs_in "gold" (Text.lower text)) as Hocc.
    { simpl in Hin.
      destruct Hin as [<-|[<-|[<-|[<-|[<-|[<-|[<-|[]]]]]]]]; rewrite H.
      - exists pre, post. reflexivity.
      - exists (pre ++ "digital "), post. rewrite append_assoc. reflexivity.
      - exists (pre ++ "invest in "), post. rewrite append_assoc. reflexivity.
      - exists (pre ++ "buy "), post. rewrite append_assoc. reflexivity.
      - exists pre, (" investment" ++ post). reflexivity.
      - exists (pre ++ "is "), (" safe" ++ post).
        rewrite append_assoc. reflexivity.
      - exists (pre ++ "should i buy "), post.
        rewrite append_assoc. reflexivity. }
    apply contains_iff in Hocc. congruence.
Qed.

(** C7. The classifier is a total function from text to bool; it answers
    true exactly when some keyword of [GOLD_KEYWORDS] occurs as a substring
    of the lower-cased text; the list is the seven keywords of the
    specification; the two sample queries classify as stated; and two
    texts that differ only in the case of their letters (in particular a
    text and its upper-cased form) classify alike. *)
Theorem C7_classifier :
  GOLD_KEYWORDS =
    ["gold"; "digital gold"; "invest in gold"; "buy gold"; "gold investment";
     "is gold safe"; "should i buy gold"]
  /\ (forall text,
        query_is_about_gold text = true <->
        exists kw, In kw GOLD_KEYWORDS /\ Text.occurs_in kw (Text.lower text))
  /\ query_is_about_gold "Should I buy gold?" = true
  /\ query_is_about_gold "What's the weather?" = false
  /\ (forall t1 t2, Text.same_up_to_case t1 t2 ->
        query_is_about_gold t1 = query_is_about_gold t2)
  /\ (forall text, query_is_about_gold (Text.upper text) = query_is_about_gold text).
Proof.
  assert (forall t1 t2, Text.same_up_to_case t1 t2 ->
            query_is_about_gold t1 = query_is_about_gold t2) as Hcase.
  { intros t1 t2 H. unfold query_is_about_gold.
    now rewrite (same_up_to_case_lower H). }
  repeat split.
  - intros H. now apply any_keyword_in_iff.
  - intros H. now apply any_keyword_in_iff.
  - exact Hcase.
  - intros text. symmetry. apply Hcase. apply same_up_to_case_upper.
Qed.

(** The case-insensitivity of C7 at a mixed-case and a lower-case spelling. *)
Lemma C7_classifier_witness :
  query_is_about_gold "Is GoLd safe" = query_is_about_gold "is gold SAFE".
Proof.
  apply (proj1 (proj2 (proj2 (proj2 (proj2 C7_classifier))))).
  repeat constructor.
Defined.


(** ** Numbers *)

Section Numbers.

Local Open Scope Q_scope.

Lemma ltb_true_iff x y : Num.ltb x y = true <-> x < y.
Proof.
  unfold Num.ltb. rewrite negb_true_iff. split.
  - intros H. apply Qnot_le_lt. intros Hle.
    apply Qle_bool_iff in Hle. congruence.
  - intros H. destruct (Qle_bool y x) eqn:E; [|reflexivity].
    apply Qle_bool_iff in E. exfalso. exact (Qlt_not_le _ _ H E).
Qed.

Lemma ltb_false_iff x y : Num.ltb x y = false <-> y <= x.
Proof.
  unfold Num.ltb. rewrite negb_false_iff. apply Qle_bool_iff.
Qed.

Lemma leb_true_iff x y : Num.leb x y = true <-> x <= y.
Proof. apply Qle_bool_iff. Qed.

Lemma leb_false_iff x y : Num.leb x y = false <-> y < x.
Proof.
  unfold Num.leb. split.
  - intros H. apply Qnot_le_lt. intros Hle.
    apply Qle_bool_iff in Hle. congruence.
  - intros H. destruct (Qle_bool x y) eqn:E; [|reflexivity].
    apply Qle_bool_iff in E. exfalso. exact (Qlt_not_le _ _ H E).
Qed.

Lemma Qfloor_nonneg x : 0 <= x -> (0 <= Qfloor x)%Z.
Proof.
  intros H. change 0%Z with (Qfloor 0). now apply Qfloor_resp_le.
Qed.

Lemma round_half_even_nonneg x : 0 <= x -> (0 <= Num.round_half_even x)%Z.
Proof.
  intros H. pose proof (Qfloor_nonneg H) as Hf.
  unfold Num.round_half_even.
  destruct (Qcompare _ _); [destruct (Z.even _)|..]; lia.
Qed.

Lemma round_nonneg x n : 0 <= x -> 0 <= Num.round x n.
Proof.
  intros H. unfold Num.round, Qle. simpl.
  rewrite Z.mul_1_r. apply round_half_even_nonneg.
  apply Qmult_le_0_compat; [exact H | discriminate].
Qed.

Lemma grams_of_nonneg req : 0 < PurchaseRequest.amount_inr req -> 0 <= grams_of req.
Proof.
  intros H. unfold grams_of. apply round_nonneg.
  apply Qle_shift_div_l; [reflexivity|].
  rewrite Qmult_0_l. now apply Qlt_le_weak.
Qed.

End Numbers.

(** ** Storage helpers *)

Section Storage.

Lemma update_row_user_id uid g a u :
  Users.user_id (update_row uid g a u) = Users.user_id u.
Proof. unfold update_row. now destruct (Z.eqb _ _). Qed.

Lemma update_row_other uid g a u :
  Users.user_id u <> uid -> update_row uid g a u = u.
Proof.
  intros H. unfold update_row.
  destruct (Z.eqb_spec (Users.user_id u) uid); [contradiction | reflexivity].
Qed.

(** The [UPDATE] keeps every row in place, so a lookup after it finds the
    updated form of the row it found before. *)
Lemma find_update uid g a v (l : list Users.row) :
  find (fun u => Z.eqb (Users.user_id u) v) (map (update_row uid g a) l) =
  option_map (update_row uid g a) (find (fun u => Z.eqb (Users.user_id u) v) l).
Proof.
  induction l as [|u l IH]; simpl; [reflexivity|].
  rewrite update_row_user_id.
  destruct (Z.eqb (Users.user_id u) v); [reflexivity | exact IH].
Qed.

Lemma find_user_id v (l : list Users.row) u :
  find (fun u => Z.eqb (Users.user_id u) v) l = Some u -> Users.user_id u = v.
Proof.
  intros H. apply find_some in H. destruct H as [_ H]. now apply Z.eqb_eq.
Qed.

Lemma account_purchased s req utcnow v :
  account (purchased s req utcnow) v =
  option_map
    (update_row (PurchaseRequest.user_id req) (grams_of req) (PurchaseRequest.amount_inr req))
    (account s v).
Proof. unfold account, purchased. simpl. apply find_update. Qed.

Lemma purchases_purchased s req utcnow :
  purchases (purchased s req utcnow) =
  (purchases s ++
   [ {| Purchases.purchase_id := next_rowid (map Purchases.purchase_id (purchases s));
        Purchases.user_id := PurchaseRequest.user_id req;
        Purchases.amount_inr := PurchaseRequest.amount_inr req;
        Purchases.grams := grams_of req;
        Purchases.timestamp := utcnow |} ])%list.
Proof. reflexivity. Qed.

(** [purchase_gold], branch by branch. *)
Lemma purchase_gold_unfold req utcnow s :
  purchase_gold req utcnow s =
  match account s (PurchaseRequest.user_id req) with
  | None => (Raised UserNotFound, s)
  | Some user =>
      if Num.leb (PurchaseRequest.amount_inr req) 0 then (Raised InvalidAmount, s)
      else
        match Users.balance user with
        | None => (Raised TypeError, s)
        | Some b =>
            if Num.ltb b (PurchaseRequest.amount_inr req)
            then (Raised (InsufficientBalance (Some b)), s)
            else
              let s' := purchased s req utcnow in
              (Ok {| PurchaseResponse.status := "success";
                     PurchaseResponse.message :=
                       [Lit "Successfully purchased gold worth ₹";
                        FloatVal (Some (PurchaseRequest.amount_inr req));
                        Lit " ("; FloatVal (Some (grams_of req));
                        Lit " g) for user_id: ";
                        IntVal (PurchaseRequest.user_id req)];
                     PurchaseResponse.purchase :=
                       {| PurchaseResponse.amount_inr := PurchaseRequest.amount_inr req;
                          PurchaseResponse.grams := grams_of req |};
                     PurchaseResponse.updated_profile :=
                       account s' (PurchaseRequest.user_id req);
                     PurchaseResponse.purchases :=
                       listPurchases s' (PurchaseRequest.user_id req) |},
               s')
        end
  end.
Proof.
  unfold purchase_gold, bind, get_user, raise, account.
  destruct (find _ (users s)) as [user|]; [|reflexivity].
  destruct (Num.leb _ _); [reflexivity|].
  destruct (Users.balance user) as [b|]; [|reflexivity].
  destruct (Num.ltb _ _); reflexivity.
Qed.

(** A purchase that returns went through every check and committed. *)
Lemma purchase_gold_ok req utcnow s r :
  response_of (purchase_gold req utcnow s) = Ok r ->
  exists user b,
    account s (PurchaseRequest.user_id req) = Some user
    /\ Users.balance user = Some b
    /\ (0 < PurchaseRequest.amount_inr req)%Q
    /\ (PurchaseRequest.amount_inr req <= b)%Q
    /\ state_of (purchase_gold req utcnow s) = purchased s req utcnow
    /\ PurchaseResponse.purchase r =
         {| PurchaseResponse.amount_inr := PurchaseRequest.amount_inr req;
            PurchaseResponse.grams := grams_of req |}.
Proof.
  rewrite purchase_gold_unfold.
  destruct (account s _) as [user|] eqn:Hacc; [|discriminate].
  destruct (Num.leb _ _) eqn:Hle; [discriminate|].
  destruct (Users.balance user) as [b|] eqn:Hbal; [|discriminate].
  destruct (Num.ltb _ _) eqn:Hlt; [discriminate|].
  simpl. intros H. injection H as <-.
  exists user, b. split; [reflexivity|]. split; [exact Hbal|].
  split; [now apply leb_false_iff|]. split; [now apply ltb_false_iff|].
  split; reflexivity.
Qed.

(** A purchase that raises commits nothing. *)
Lemma purchase_gold_raised req utcnow s e :
  response_of (purchase_gold req utcnow s) = Raised e ->
  state_of (purchase_gold req utcnow s) = s.
Proof.
  rewrite purchase_gold_unfold.
  destruct (account s _) as [user|]; [|reflexivity].
  destruct (Num.leb _ _); [reflexivity|].
  destruct (Users.balance user) as [b|]; [|reflexivity].
  destruct (Num.ltb _ _); [reflexivity | discriminate].
Qed.

Lemma gold_assistant_state req s : state_of (gold_assistant req s) = s.
Proof.
  unfold gold_assistant, bind, get_user, raise, ret.
  destruct (find _ _); [|reflexivity].
  destruct (negb _); reflexivity.
Qed.

Lemma get_user_endpoint_state uid s : state_of (get_user_endpoint uid s) = s.
Proof.
  unfold get_user_endpoint, bind, get_user, raise, ret.
  destruct (find _ _); reflexivity.
Qed.

(** What a request does to the database. *)
Lemma handle_state r s :
  state_of (handle r s) =
  match r with
  | POST_create_user req => state_of (create_user req s)
  | POST_purchase_gold req utcnow => state_of (purchase_gold req utcnow s)
  | _ => s
  end.
Proof.
  destruct r as [req|uid|req|req utcnow|]; simpl; unfold fmap, bind.
  - reflexivity.
  - pose proof (get_user_endpoint_state uid s) as H.
    destruct (get_user_endpoint uid s) as [[?|?] ?]; exact H.
  - pose proof (gold_assistant_state req s) as H.
    destruct (gold_assistant req s) as [[?|?] ?]; exact H.
  - destruct (purchase_gold req utcnow s) as [[?|?] ?]; reflexivity.
  - reflexivity.
Qed.

End Storage.

(** ** The purchase engine *)

Section Purchase.

Local Open Scope Q_scope.



(** C3. For an existing user with balance [b]: a purchase of an amount
    above [b] raises the insufficient-balance error, whose message carries
    [b], and leaves the database as it was; an amount that does not exceed
    [b] never raises that error; and a positive amount equal to [b]
    returns successfully. *)
Theorem C3_insufficient_balance s req utcnow user b :
  response_of (get_user (PurchaseRequest.user_id req) s) = Ok (Some user) ->
  Users.balance user = Some b ->
  (0 < PurchaseRequest.amount_inr req -> b < PurchaseRequest.amount_inr req ->
     purchase_gold req utcnow s = (Raised (InsufficientBalance (Some b)), s))
  /\ (PurchaseRequest.amount_inr req <= b ->
      forall available,
        response_of (purchase_gold req utcnow s) <> Raised (InsufficientBalance available))
  /\ (0 < PurchaseRequest.amount_inr req -> PurchaseRequest.amount_inr req == b ->
      exists r, response_of (purchase_gold req utcnow s) = Ok r).
Proof.
  intros Hacc Hbal.
  assert (account s (PurchaseRequest.user_id req) = Some user) as Hacc'.
  { unfold response_of, get_user in Hacc. simpl in Hacc. now injection Hacc. }
  rewrite purchase_gold_unfold, Hacc', Hbal.
  split; [|split].
  - intros Hpos Hlt. apply leb_false_iff in Hpos. apply ltb_true_iff in Hlt.
    now rewrite Hpos, Hlt.
  - intros Hle available. apply ltb_false_iff in Hle. rewrite Hle.
    destruct (Num.leb _ _); discriminate.
  - intros Hpos Heq. apply leb_false_iff in Hpos. rewrite Hpos.
    assert (Num.ltb b (PurchaseRequest.amount_inr req) = false) as Hlt.
    { apply ltb_false_iff. rewrite Heq. apply Qle_refl. }
    rewrite Hlt. eexists. reflexivity.
Qed.

(** C3 on the sample account: balance 100, purchase of 150. *)
Lemma C3_insufficient_balance_witness :
  purchase_gold (buy 1 150) "2024-01-01T00:00:00" alice_db
  = (Raised (InsufficientBalance (Some 100)), alice_db).
Proof.
  refine (proj1
    (@C3_insufficient_balance alice_db (buy 1 150) "2024-01-01T00:00:00"
       {| Users.user_id := 1; Users.name := "alice";
          Users.balance := Some 100; Users.gold_grams := Some 0 |}
       100 _ _) _ _); reflexivity.
Defined.

(** C4, as stated, fails: for a user id that resolves to no account the
    existence check comes first, so a purchase of -5 on the fresh database
    raises the not-found error and not the invalid-amount one. *)
Lemma C4_counterexample :
  -5 <= 0
  /\ response_of (purchase_gold (buy 1 (-5)) "2024-01-01T00:00:00" init_db)
     = Raised UserNotFound
  /\ response_of (purchase_gold (buy 1 (-5)) "2024-01-01T00:00:00" init_db)
     <> Raised InvalidAmount.
Proof.
  split; [discriminate|]. split; [reflexivity | discriminate].
Qed.

(** C4, amended. For every amount [amount_inr <= 0] a purchase raises and
    leaves the database as it was, whatever the user id; the error is the
    invalid-amount one when the user id resolves to an account. *)
Theorem C4_invalid_amount s req utcnow :
  PurchaseRequest.amount_inr req <= 0 ->
  state_of (purchase_gold req utcnow s) = s
  /\ (exists e, response_of (purchase_gold req utcnow s) = Raised e)
  /\ (forall user,
        response_of (get_user (PurchaseRequest.user_id req) s) = Ok (Some user) ->
        response_of (purchase_gold req utcnow s) = Raised InvalidAmount).
Proof.
  intros Hle. apply leb_true_iff in Hle.
  rewrite purchase_gold_unfold.
  change (response_of (get_user (PurchaseRequest.user_id req) s))
    with (Ok (account s (PurchaseRequest.user_id req))).
  destruct (account s _) as [user|]; rewrite ?Hle; simpl.
  - split; [reflexivity|]. split; [eexists; reflexivity|]. reflexivity.
  - split; [reflexivity|]. split; [eexists; reflexivity|]. discriminate.
Qed.

(** C4 amended on the sample account: a purchase of -5. *)
Lemma C4_invalid_amount_witness :
  state_of (purchase_gold (buy 1 (-5)) "2024-01-01T00:00:00" alice_db) = alice_db.
Proof.
  refine (proj1 (@C4_invalid_amount alice_db (buy 1 (-5)) "2024-01-01T00:00:00" _)).
  discriminate.
Defined.



End Purchase.

(** ** The assistant *)

(** C9. [gold_assistant] leaves the database as it was for every request
    and every database, and for a fixed user its outcome is determined by
    the classifier's answer: two queries that classify alike get the same
    response (for an existing user, one of two fixed responses). *)
Theorem C9_assistant_reads_only :
  (forall req s, state_of (gold_assistant req s) = s)
  /\ (forall s user_id q1 q2,
        query_is_about_gold q1 = query_is_about_gold q2 ->
        response_of (gold_assistant (GoldAssistantRequest.mk user_id q1) s) =
        response_of (gold_assistant (GoldAssistantRequest.mk user_id q2) s))
  /\ (forall s user_id q user,
        response_of (get_user user_id s) = Ok (Some user) ->
        exists r,
          response_of (gold_assistant (GoldAssistantRequest.mk user_id q) s) = Ok r
          /\ GoldAssistantResponse.is_gold_query r = query_is_about_gold q).
Proof.
  split; [exact gold_assistant_state|]. split.
  - intros s user_id q1 q2 H.
    unfold gold_assistant, bind, get_user, raise, ret. simpl.
    destruct (find _ _); [|reflexivity].
    now rewrite H.
  - intros s user_id q user H.
    unfold response_of, get_user in H. simpl in H. injection H as H.
    unfold gold_assistant, bind, get_user, raise, ret. simpl. rewrite H.
    destruct (query_is_about_gold q); simpl; eexists; split; reflexivity.
Qed.

(** C9 on the sample account, with two gold-related queries. *)
Lemma C9_assistant_reads_only_witness :
  response_of (gold_assistant (GoldAssistantRequest.mk 1 "Should I buy gold?") alice_db) =
  response_of (gold_assistant (GoldAssistantRequest.mk 1 "is GOLD safe") alice_db).
Proof.
  apply (proj1 (proj2 C9_assistant_reads_only)). reflexivity.
Defined.

(** ** Frame of a purchase *)

(** C10. A successful purchase for user [u] leaves every other account as
    it was, whether looked up by id or by its place in the table, keeps
    the number of accounts, and turns the ledger into the old ledger
    followed by one row owned by [u]. *)
Theorem C10_purchase_frame s req utcnow r :
  response_of (purchase_gold req utcnow s) = Ok r ->
  let u := PurchaseRequest.user_id req in
  let s' := state_of (purchase_gold req utcnow s) in
  (forall v, v <> u -> response_of (get_user v s') = response_of (get_user v s))
  /\ List.length (users s') = List.length (users s)
  /\ (forall i row,
        nth_error (users s) i = Some row -> Users.user_id row <> u ->
        nth_error (users s') i = Some row)
  /\ exists record,
       purchases s' = (purchases s ++ [record])%list
       /\ Purchases.user_id record = u.
Proof.
  intros Hok u s'.
  destruct (purchase_gold_ok _ _ _ Hok) as (user & b & _ & _ & _ & _ & Hst & _).
  subst s'. rewrite Hst. clear Hst.
  split; [|split; [|split]].
  - intros v Hv.
    change (Ok (account (purchased s req utcnow) v) = Ok (account s v)).
    rewrite account_purchased.
    destruct (account s v) as [w|] eqn:Hw; [|reflexivity].
    simpl. rewrite update_row_other; [reflexivity|].
    unfold account in Hw. rewrite (find_user_id _ _ Hw). exact Hv.
  - unfold purchased. simpl. apply length_map.
  - intros i row Hi Hrow. unfold purchased. simpl.
    rewrite nth_error_map, Hi. simpl.
    now rewrite update_row_other.
  - eexists. split; [apply purchases_purchased | reflexivity].
Qed.

(** C10 on the sample account: the purchase of 60 appends one row. *)
Lemma C10_purchase_frame_witness :
  List.length (users (state_of (purchase_gold (buy 1 60) "2024-01-01T00:00:00" alice_db)))
  = List.length (users alice_db).
Proof.
  refine (proj1 (proj2
    (@C10_purchase_frame alice_db (buy 1 60) "2024-01-01T00:00:00" _ _))).
  reflexivity.
Defined.

(** ** Invariants of the accounts *)

Section Invariants.

Local Open Scope Q_scope.

Lemma fold_max_ge ids i : In i ids -> (i <= fold_right Z.max 0 ids)%Z.
Proof.
  induction ids as [|j ids IH]; simpl; [intros []|].
  intros [->|H]; [|specialize (IH H)]; lia.
Qed.

Lemma next_rowid_fresh ids : Forall (fun i => (i < next_rowid ids)%Z) ids.
Proof.
  apply Forall_forall. intros i H. apply fold_max_ge in H.
  unfold next_rowid. lia.
Qed.

Lemma next_rowid_not_in ids : ~ In (next_rowid ids) ids.
Proof.
  intros H. pose proof (next_rowid_fresh ids) as F.
  rewrite Forall_forall in F. specialize (F _ H). lia.
Qed.

Lemma map_update_row_ids uid g a l :
  map Users.user_id (map (update_row uid g a) l) = map Users.user_id l.
Proof.
  rewrite map_map. apply map_ext. intros u. apply update_row_user_id.
Qed.

(** The primary key holds in every state a request leads to. *)
Lemma handle_keyed r s : users_keyed s -> users_keyed (state_of (handle r s)).
Proof.
  intros K. rewrite handle_state.
  destruct r as [req|uid|req|req utcnow|]; try exact K.
  - unfold users_keyed, create_user. simpl. rewrite map_app. simpl.
    apply NoDup_app; [exact K | repeat constructor; intros [] |].
    intros i Hi [<-|[]]. exact (next_rowid_not_in _ Hi).
  - destruct (response_of (purchase_gold req utcnow s)) as [r|e] eqn:E.
    + destruct (purchase_gold_ok _ _ _ E) as (_ & _ & _ & _ & _ & _ & -> & _).
      unfold users_keyed, purchased. simpl. now rewrite map_update_row_ids.
    + now rewrite (purchase_gold_raised _ _ _ E).
Qed.

(** Under the primary key, the row a lookup finds is the only row with
    that id. *)
Lemma keyed_find (l : list Users.row) u :
  NoDup (map Users.user_id l) -> In u l ->
  find (fun w => Z.eqb (Users.user_id w) (Users.user_id u)) l = Some u.
Proof.
  induction l as [|w l IH]; simpl; [intros _ []|].
  intros K Hin. apply NoDup_cons_iff in K. destruct K as [Hw K].
  destruct Hin as [->|Hin].
  - now rewrite Z.eqb_refl.
  - destruct (Z.eqb_spec (Users.user_id w) (Users.user_id u)) as [E|_].
    + exfalso. apply Hw. rewrite E. now apply in_map.
    + now apply IH.
Qed.

(** A purchase that returns keeps every balance non-negative. *)
Lemma purchase_balances s req utcnow r :
  users_keyed s -> balances_nonneg s ->
  response_of (purchase_gold req utcnow s) = Ok r ->
  balances_nonneg (purchased s req utcnow).
Proof.
  intros K B Hok.
  destruct (purchase_gold_ok _ _ _ Hok) as (user & b & Hacc & Hbal & _ & Hle & _).
  unfold balances_nonneg, purchased. simpl.
  apply Forall_forall. intros u' Hin. apply in_map_iff in Hin.
  destruct Hin as [u [<- Hin]].
  unfold balances_nonneg in B. rewrite Forall_forall in B.
  unfold update_row.
  destruct (Z.eqb_spec (Users.user_id u) (PurchaseRequest.user_id req)) as [E|_];
    [|now apply B].
  pose proof (@keyed_find _ _ K Hin) as F. rewrite E in F.
  unfold account in Hacc. rewrite F in Hacc. injection Hacc as ->.
  unfold balance_ok. simpl. rewrite Hbal. simpl.
  unfold Qminus. now apply -> Qle_minus_iff.
Qed.

Lemma handle_balances r s :
  users_keyed s -> balances_nonneg s -> deposit_nonneg r ->
  balances_nonneg (state_of (handle r s)).
Proof.
  intros K B D. rewrite handle_state.
  destruct r as [req|uid|req|req utcnow|]; try exact B.
  - unfold balances_nonneg, create_user. simpl.
    apply Forall_app. split; [exact B|]. constructor; [|constructor].
    exact D.
  - destruct (response_of (purchase_gold req utcnow s)) as [r|e] eqn:E.
    + destruct (purchase_gold_ok _ _ _ E) as (_ & _ & _ & _ & _ & _ & -> & _).
      exact (@purchase_balances _ _ _ _ K B E).
    + now rewrite (purchase_gold_raised _ _ _ E).
Qed.

Lemma serve_cons r reqs s :
  serve (r :: reqs) s =
  (response_of (handle r s) :: fst (serve reqs (state_of (handle r s))),
   snd (serve reqs (state_of (handle r s)))).
Proof.
  simpl. unfold response_of, state_of.
  destruct (handle r s) as [out s1]. simpl.
  now destruct (serve reqs s1).
Qed.

Lemma serve_balances reqs : forall s,
  users_keyed s -> balances_nonneg s -> Forall deposit_nonneg reqs ->
  users_keyed (snd (serve reqs s)) /\ balances_nonneg (snd (serve reqs s)).
Proof.
  induction reqs as [|r reqs IH]; intros s K B D.
  - now split.
  - rewrite serve_cons. simpl. inversion D as [|? ? Dr Dreqs]; subst.
    apply IH; [now apply handle_keyed | now apply handle_balances | exact Dreqs].
Qed.

(** The states [serve] ends in are the reachable ones. *)
Lemma serve_reachable reqs : forall s, reachable s -> reachable (snd (serve reqs s)).
Proof.
  induction reqs as [|r reqs IH]; intros s R; [exact R|].
  rewrite serve_cons. simpl. apply IH. now constructor.
Qed.

Lemma reachable_serve s : reachable s -> exists reqs, s = snd (serve reqs init_db).
Proof.
  assert (forall reqs r s0,
             snd (serve (reqs ++ [r]) s0) = state_of (handle r (snd (serve reqs s0)))) as Hsnoc.
  { induction reqs as [|r' reqs IH]; intros r s0.
    - simpl. unfold state_of. now destruct (handle r s0).
    - change ((r' :: reqs) ++ [r])%list with (r' :: (reqs ++ [r]))%list.
      rewrite !serve_cons. simpl. apply IH. }
  induction 1 as [|s r R [reqs ->]].
  - now exists [].
  - exists (reqs ++ [r])%list. now rewrite Hsnoc.
Qed.

(** C2, as stated, fails: [create_user] stores the caller-supplied deposit
    as it is, so opening an account with a deposit of -50 on the fresh
    database leads to a reachable state with a balance below zero. *)
Lemma C2_counterexample :
  let s := state_of (handle (POST_create_user (CreateUserRequest.mk "bob" (Some (-50)))) init_db) in
  reachable s
  /\ response_of (get_user 1 s)
     = Ok (Some {| Users.user_id := 1; Users.name := "bob";
                   Users.balance := Some (-50); Users.gold_grams := Some 0 |})
  /\ -50 < 0
  /\ ~ balances_nonneg s.
Proof.
  split; [apply reachable_step, reachable_init|].
  split; [reflexivity|]. split; [reflexivity|].
  intros H. inversion H as [|? ? Hb _]; subst.
  unfold balance_ok in Hb. simpl in Hb. now apply Hb.
Qed.

(** C2, amended. Serving, from the fresh database, any requests whose
    create-user calls carry no negative deposit ends in a state where no
    balance is below zero; and from any state with non-negative balances
    (and [user_id] a key) a purchase, an assistant call or a read leaves
    all balances non-negative. *)
Theorem C2_balances_nonneg :
  (forall reqs, Forall deposit_nonneg reqs ->
     balances_nonneg (snd (serve reqs init_db)))
  /\ (forall s r, users_keyed s -> balances_nonneg s ->
        (forall req, r <> POST_create_user req) ->
        balances_nonneg (state_of (handle r s))).
Proof.
  split.
  - intros reqs D. apply serve_balances; [constructor | constructor | exact D].
  - intros s r K B Hr. apply handle_balances; [exact K | exact B |].
    destruct r; try exact I. now elim (Hr req).
Qed.

(** C2 amended on the scenario of the specification: deposit 100, then two
    purchases of 60, the second of which is refused. *)
Lemma C2_balances_nonneg_witness :
  balances_nonneg
    (snd (serve [POST_create_user (CreateUserRequest.mk "alice" (Some 100));
                 POST_purchase_gold (buy 1 60) "2024-01-01T00:00:00";
                 POST_purchase_gold (buy 1 60) "2024-01-01T00:00:01"] init_db)).
Proof.
  apply (proj1 C2_balances_nonneg).
  repeat constructor. discriminate.
Defined.

End Invariants.

(** ** Gold holdings *)

Section Gold.

Local Open Scope Q_scope.







End Gold.

(** ** The ledger *)

Section Ledger.


Lemma handle_purchases r s :
  purchases (state_of (handle r s)) = purchases s
  \/ exists req utcnow r',
       r = POST_purchase_gold req utcnow
       /\ response_of (purchase_gold req utcnow s) = Ok r'
       /\ state_of (handle r s) = purchased s req utcnow.
Proof.
  rewrite handle_state.
  destruct r as [req|uid|req|req utcnow|]; try (now left).
  destruct (response_of (purchase_gold req utcnow s)) as [r|e] eqn:E.
  - right. exists req, utcnow, r. split; [reflexivity|]. split; [exact E|].
    now destruct (purchase_gold_ok _ _ _ E) as (_ & _ & _ & _ & _ & _ & -> & _).
  - left. now rewrite (purchase_gold_raised _ _ _ E).
Qed.










End Ledger.


(** * Further properties of the endpoints *)

(** ** Opening an account *)

Section CreateUser.

Local Open Scope Q_scope.

Lemma find_snoc {A} (f : A -> bool) l x :
  find f (l ++ [x]) =
  match find f l with
  | Some y => Some y
  | None => if f x then Some x else None
  end.
Proof.
  induction l as [|y l IH]; simpl; [reflexivity|].
  destruct (f y); [reflexivity | exact IH].
Qed.




Lemma account_created req s v :
  account (state_of (create_user req s)) v =
  match account s v with
  | Some u => Some u
  | None =>
      if Z.eqb (next_rowid (map Users.user_id (users s))) v
      then Some {| Users.user_id := next_rowid (map Users.user_id (users s));
                   Users.name := CreateUserRequest.name req;
                   Users.balance := CreateUserRequest.initial_deposit req;
                   Users.gold_grams := Some 0 |}
      else None
  end.
Proof. unfold account, create_user. simpl. now rewrite find_snoc. Qed.





End CreateUser.

(** ** Outcomes of a purchase and of a profile read *)

Section Outcomes.

Local Open Scope Q_scope.






End Outcomes.

(** ** Listing purchases *)

Section Listing.

Lemma insert_desc_perm r l : Permutation (insert_desc r l) (r :: l).
Proof.
  induction l as [|x l IH]; simpl; [reflexivity|].
  destruct (Z.ltb _ _); [reflexivity|].
  rewrite IH. apply perm_swap.
Qed.

Lemma order_desc_perm l : Permutation (order_by_purchase_id_desc l) l.
Proof.
  induction l as [|x l IH]; simpl; [constructor|].
  unfold order_by_purchase_id_desc in *. simpl.
  rewrite insert_desc_perm. now constructor.
Qed.

Lemma insert_desc_sorted r l :
  StronglySorted newer_or_same l -> StronglySorted newer_or_same (insert_desc r l).
Proof.
  induction 1 as [|x l S IH F]; simpl; [repeat constructor|].
  destruct (Z.ltb_spec (Purchases.purchase_id x) (Purchases.purchase_id r)) as [Hlt|Hge].
  - constructor; [now constructor|].
    constructor; [unfold newer_or_same; lia|].
    eapply Forall_impl; [|exact F].
    unfold newer_or_same. intros y Hy. lia.
  - constructor; [exact IH|].
    apply Forall_forall. intros y Hy.
    apply (Permutation_in _ (insert_desc_perm r l)) in Hy.
    destruct Hy as [<-|Hy]; [exact Hge|].
    rewrite Forall_forall in F. now apply F.
Qed.

Lemma order_desc_sorted l : StronglySorted newer_or_same (order_by_purchase_id_desc l).
Proof.
  induction l as [|x l IH]; [constructor|].
  now apply insert_desc_sorted.
Qed.

(** X5. On any database, [get_purchases_for_user] returns a rearrangement
    of exactly the ledger rows owned by the user (none lost, none
    duplicated, none of another user), ordered by descending
    [purchase_id], and leaves the database as it was. *)
Theorem X5_get_purchases_sorted user_id s :
  exists l,
    get_purchases_for_user user_id s = (Ok l, s)
    /\ Permutation l (ledger_of s user_id)
    /\ StronglySorted newer_or_same l
    /\ (forall p, In p l <-> In p (purchases s) /\ Purchases.user_id p = user_id).
Proof.
  exists (listPurchases s user_id). split; [reflexivity|].
  assert (Permutation (listPurchases s user_id) (ledger_of s user_id)) as P
    by apply order_desc_perm.
  split; [exact P|]. split; [apply order_desc_sorted|].
  intros p. split.
  - intros H. apply (Permutation_in _ P) in H.
    apply filter_In in H. destruct H as [H E]. split; [exact H | now apply Z.eqb_eq].
  - intros [H E]. apply (Permutation_in _ (Permutation_sym P)).
    apply filter_In. split; [exact H | now apply Z.eqb_eq].
Qed.

End Listing.

(** ** More on the classifier *)

Section ClassifierMore.

Local Open Scope string_scope.

Lemma lower_app a b : Text.lower (a ++ b) = Text.lower a ++ Text.lower b.
Proof. induction a as [|c a IH]; simpl; [reflexivity | now rewrite IH]. Qed.

(** X6. Six of the seven keywords are redundant: the classifier answers
    true exactly when the lower-cased text contains the word gold.  Hence a
    text that embeds a gold-related text is gold-related, whatever
    surrounds it, and a text is gold-related as soon as one of two
    concatenated parts is. *)
Theorem X6_classifier_gold_word :
  (forall text,
      query_is_about_gold text = true <-> Text.occurs_in "gold" (Text.lower text))
  /\ (forall pre text post,
        query_is_about_gold text = true ->
        query_is_about_gold (pre ++ text ++ post) = true)
  /\ (forall a b,
        query_is_about_gold a || query_is_about_gold b = true ->
        query_is_about_gold (a ++ b) = true).
Proof.
  assert (forall text,
             query_is_about_gold text = true <-> Text.occurs_in "gold" (Text.lower text))
    as Hword.
  { intros text. rewrite query_is_about_gold_word. apply contains_iff. }
  assert (forall pre text post,
             query_is_about_gold text = true ->
             query_is_about_gold (pre ++ text ++ post) = true) as Hembed.
  { intros pre text post H. apply Hword in H. destruct H as [p [q H]].
    apply Hword. rewrite !lower_app, H.
    exists (Text.lower pre ++ p), (q ++ Text.lower post).
    now rewrite !append_assoc. }
  split; [exact Hword|]. split; [exact Hembed|].
  intros a b H. apply orb_true_iff in H. destruct H as [H|H].
  - specialize (Hembed "" a b H). exact Hembed.
  - specialize (Hembed a b "" H).
    replace (b ++ "") with b in Hembed; [exact Hembed|].
    clear. induction b as [|c b IH]; simpl; [reflexivity | now rewrite <- IH].
Qed.

(** X6 on a gold-related question inside a longer message. *)
Lemma X6_classifier_gold_word_witness :
  query_is_about_gold ("Hello. " ++ "Is GOLD safe?" ++ " Thanks.") = true.
Proof.
  apply (proj1 (proj2 X6_classifier_gold_word)). reflexivity.
Defined.

End ClassifierMore.

(** ** Rounding of the grams *)

Section Rounding.

Local Open Scope Q_scope.





End Rounding.

(** ** Keys and references in the reachable states *)

Section Keys.

Lemma fold_max_seq n : forall a,
  fold_right Z.max 0%Z (map Z.of_nat (seq a (S n))) = Z.of_nat (a + n).
Proof.
  induction n as [|n IH]; intros a.
  - cbn [seq map fold_right]. lia.
  - change (seq a (S (S n))) with (a :: seq (S a) (S n)).
    cbn [map fold_right]. rewrite IH. lia.
Qed.

Lemma next_rowid_upto n : next_rowid (ids_upto n) = Z.of_nat (S n).
Proof.
  unfold next_rowid, ids_upto. destruct n as [|n].
  - reflexivity.
  - rewrite fold_max_seq. lia.
Qed.

Lemma ids_upto_snoc n : ids_upto (S n) = (ids_upto n ++ [Z.of_nat (S n)])%list.
Proof.
  unfold ids_upto. rewrite seq_S, map_app. reflexivity.
Qed.

(** Appending a row with the next rowid keeps the ids consecutive. *)
Lemma upto_insert (ids : list Z) n :
  ids = ids_upto n -> (ids ++ [next_rowid ids])%list = ids_upto (S n).
Proof.
  intros ->. now rewrite next_rowid_upto, ids_upto_snoc.
Qed.

Lemma handle_consecutive r s : ids_consecutive s -> ids_consecutive (state_of (handle r s)).
Proof.
  intros [U P]. rewrite handle_state.
  destruct r as [req|uid|req|req utcnow|]; try (now split).
  - split; [|exact P].
    unfold create_user. simpl. rewrite map_app, length_app. simpl.
    rewrite Nat.add_1_r. exact (@upto_insert _ _ U).
  - destruct (response_of (purchase_gold req utcnow s)) as [r|e] eqn:E.
    + destruct (purchase_gold_ok _ _ _ E) as (_ & _ & _ & _ & _ & _ & -> & _).
      split.
      * unfold purchased. simpl. now rewrite map_update_row_ids, length_map.
      * rewrite purchases_purchased, map_app, length_app. simpl.
        rewrite Nat.add_1_r. exact (@upto_insert _ _ P).
    + rewrite (purchase_gold_raised _ _ _ E). now split.
Qed.

Lemma reachable_consecutive s : reachable s -> ids_consecutive s.
Proof.
  induction 1 as [|s r R IH]; [now split | now apply handle_consecutive].
Qed.

Lemma ids_upto_NoDup n : NoDup (ids_upto n).
Proof.
  induction n as [|n IH]; [constructor|].
  rewrite ids_upto_snoc.
  apply NoDup_app; [exact IH | repeat constructor; intros [] |].
  intros i Hi [<-|[]]. unfold ids_upto in Hi.
  apply in_map_iff in Hi. destruct Hi as [k [Hk Hin]].
  apply in_seq in Hin. lia.
Qed.

(** X8. In every reachable state the accounts carry the ids 1, 2, ..., n
    in the order of their creation and the ledger rows the ids 1, 2, ...,
    m; so [user_id] is a key, and the next account gets the id n + 1
    and the next ledger row the id m + 1. *)
Theorem X8_ids_consecutive s :
  reachable s ->
  map Users.user_id (users s) = ids_upto (List.length (users s))
  /\ map Purchases.purchase_id (purchases s) = ids_upto (List.length (purchases s))
  /\ users_keyed s
  /\ NoDup (map Purchases.purchase_id (purchases s))
  /\ next_rowid (map Users.user_id (users s)) = Z.of_nat (S (List.length (users s)))
  /\ next_rowid (map Purchases.purchase_id (purchases s))
     = Z.of_nat (S (List.length (purchases s))).
Proof.
  intros R. destruct (reachable_consecutive R) as [U P].
  split; [exact U|]. split; [exact P|].
  unfold users_keyed. rewrite U, P. rewrite !next_rowid_upto.
  repeat split; apply ids_upto_NoDup.
Qed.

(** X8 on the sample database, which is reachable. *)
Lemma X8_ids_consecutive_witness :
  next_rowid (map Users.user_id (users alice_db)) = 2%Z.
Proof.
  refine (proj1 (proj2 (proj2 (proj2 (proj2 (@X8_ids_consecutive alice_db _)))))).
  exact (reachable_step (POST_create_user (CreateUserRequest.mk "alice" (Some 100%Q)))
           reachable_init).
Defined.

Lemma account_kept_by_handle r s v u :
  account s v = Some u -> exists u', account (state_of (handle r s)) v = Some u'.
Proof.
  intros H. rewrite handle_state.
  destruct r as [req|uid|req|req utcnow|]; try (now exists u).
  - rewrite account_created, H. now exists u.
  - destruct (response_of (purchase_gold req utcnow s)) as [r|e] eqn:E.
    + destruct (purchase_gold_ok _ _ _ E) as (_ & _ & _ & _ & _ & _ & -> & _).
      rewrite account_purchased, H. simpl. eexists. reflexivity.
    + rewrite (purchase_gold_raised _ _ _ E). now exists u.
Qed.

Lemma handle_refers r s : ledger_refers s -> ledger_refers (state_of (handle r s)).
Proof.
  intros L. unfold ledger_refers in *.
  assert (Forall (fun p => exists u,
                    account (state_of (handle r s)) (Purchases.user_id p) = Some u)
            (purchases s)) as Old.
  { eapply Forall_impl; [|exact L]. intros p [u H].
    exact (account_kept_by_handle r _ _ H). }
  destruct (handle_purchases r s) as [->|(req & utcnow & r' & -> & Hok & Hst)];
    [exact Old|].
  rewrite Hst in *. rewrite purchases_purchased.
  apply Forall_app. split; [exact Old|]. constructor; [|constructor]. simpl.
  destruct (purchase_gold_ok _ _ _ Hok) as (user & _ & Hacc & _).
  rewrite account_purchased, Hacc. simpl. eexists. reflexivity.
Qed.

Lemma reachable_refers s : reachable s -> ledger_refers s.
Proof.
  induction 1 as [|s r R IH]; [constructor | now apply handle_refers].
Qed.

(** X9. Although the schema's foreign key is not enforced by the storage
    layer, in every reachable state every ledger row belongs to an
    existing account: [get_user] on the row's [user_id] finds one. *)
Theorem X9_ledger_refers_to_accounts s p :
  reachable s -> In p (purchases s) ->
  exists u,
    response_of (get_user (Purchases.user_id p) s) = Ok (Some u)
    /\ Users.user_id u = Purchases.user_id p.
Proof.
  intros R Hin. pose proof (reachable_refers R) as L.
  unfold ledger_refers in L. rewrite Forall_forall in L.
  destruct (L p Hin) as [u Hu]. exists u.
  split; [exact (f_equal (@Ok _) Hu)|].
  unfold account in Hu. exact (find_user_id _ _ Hu).
Qed.

(** X9 on the sample account after its purchase. *)
Lemma X9_ledger_refers_to_accounts_witness :
  exists u,
    response_of (get_user 1 alice_bought_db) = Ok (Some u)
    /\ Users.user_id u = 1%Z.
Proof.
  refine (@X9_ledger_refers_to_accounts alice_bought_db alice_record _ _).
  - exact (reachable_step (POST_purchase_gold (buy 1 60) "2024-01-01T00:00:00")
             (reachable_step (POST_create_user (CreateUserRequest.mk "alice" (Some 100%Q)))
                reachable_init)).
  - left. reflexivity.
Defined.




End Keys.

(** ** Accounting *)

Section Accounting.

Local Open Scope Q_scope.










End Accounting.

(** ** The life of an account row *)

Section AccountLife.

Local Open Scope Q_scope.

Lemma nth_error_snoc_old {A} (l : list A) x i a :
  nth_error l i = Some a -> nth_error (l ++ [x]) i = Some a.
Proof.
  intros H. rewrite nth_error_app1; [exact H|].
  apply nth_error_Some. congruence.
Qed.




Lemma evolves_refl u : evolves u u.
Proof.
  unfold evolves. repeat split.
  - destruct (Users.balance u); [apply Qle_refl | exact I].
  - destruct (Users.gold_grams u); [apply Qle_refl | exact I].
Qed.

Lemma evolves_trans u v w : evolves u v -> evolves v w -> evolves u w.
Proof.
  unfold evolves. intros (I1 & N1 & B1 & G1) (I2 & N2 & B2 & G2).
  split; [congruence|]. split; [congruence|]. split.
  - destruct (Users.balance u), (Users.balance v), (Users.balance w);
      try contradiction; try exact I.
    eapply Qle_trans; eassumption.
  - destruct (Users.gold_grams u), (Users.gold_grams v), (Users.gold_grams w);
      try contradiction; try exact I.
    eapply Qle_trans; eassumption.
Qed.

Lemma update_row_evolves uid g a u :
  0 <= g -> 0 <= a -> evolves u (update_row uid g a u).
Proof.
  intros Hg Ha. unfold update_row.
  destruct (Z.eqb _ _); [|apply evolves_refl].
  unfold evolves. simpl. repeat split.
  - destruct (Users.balance u); simpl; [lra | exact I].
  - destruct (Users.gold_grams u); simpl; [lra | exact I].
Qed.

Lemma handle_evolves r s i u :
  nth_error (users s) i = Some u ->
  exists u', nth_error (users (state_of (handle r s))) i = Some u' /\ evolves u u'.
Proof.
  intros Hi. rewrite handle_state.
  destruct r as [req|uid|req|req utcnow|];
    try (exists u; split; [exact Hi | apply evolves_refl]).
  - exists u. split; [|apply evolves_refl].
    unfold create_user. simpl. now apply nth_error_snoc_old.
  - destruct (response_of (purchase_gold req utcnow s)) as [r|e] eqn:E.
    + destruct (purchase_gold_ok _ _ _ E) as (_ & _ & _ & _ & Hpos & _ & -> & _).
      eexists. unfold purchased. simpl. rewrite nth_error_map, Hi. simpl.
      split; [reflexivity|].
      apply update_row_evolves; [now apply grams_of_nonneg | now apply Qlt_le_weak].
    + rewrite (purchase_gold_raised _ _ _ E).
      exists u. split; [exact Hi | apply evolves_refl].
Qed.

(** X13. No request deletes, moves, renames or re-keys an account, none
    credits cash and none removes gold: after serving any requests a row
    of [users] is still at its place with the same [user_id] and [name], a
    null balance or holding is still null, a numeric balance has not grown
    and a numeric holding has not shrunk; and the table has not got
    shorter. *)
Theorem X13_account_rows_persist reqs : forall s,
  (forall i u,
      nth_error (users s) i = Some u ->
      exists u', nth_error (users (snd (serve reqs s))) i = Some u' /\ evolves u u')
  /\ (List.length (users s) <= List.length (users (snd (serve reqs s))))%nat.
Proof.
  assert (forall s i u,
      nth_error (users s) i = Some u ->
      exists u', nth_error (users (snd (serve reqs s))) i = Some u' /\ evolves u u') as H.
  { induction reqs as [|r reqs IH]; intros s i u Hi.
    - exists u. split; [exact Hi | apply evolves_refl].
    - rewrite serve_cons. simpl.
      destruct (handle_evolves r _ _ Hi) as (u1 & Hi1 & E1).
      destruct (IH _ _ _ Hi1) as (u2 & Hi2 & E2).
      exists u2. split; [exact Hi2 | exact (evolves_trans E1 E2)]. }
  intros s. split; [apply H|].
  destruct (users s) as [|u0 l] eqn:Hu using rev_ind; [simpl; lia|].
  clear IHl.
  assert (nth_error (users s) (List.length l) = Some u0) as Hlast.
  { rewrite Hu, nth_error_app2, Nat.sub_diag; [reflexivity | lia]. }
  destruct (H s _ _ Hlast) as (u' & Hi' & _).
  assert (List.length l < List.length (users (snd (serve reqs s))))%nat
    by (apply nth_error_Some; congruence).
  rewrite length_app. simpl. lia.
Qed.

(** X13 on the scenario: the sample account after two purchase requests. *)
Lemma X13_account_rows_persist_witness :
  exists u',
    nth_error
      (users (snd (serve [POST_purchase_gold (buy 1 60) "2024-01-01T00:00:00";
                          POST_purchase_gold (buy 1 60) "2024-01-01T00:00:01"]
                     alice_db))) 0 = Some u'
    /\ evolves {| Users.user_id := 1; Users.name := "alice";
                  Users.balance := Some 100; Users.gold_grams := Some 0 |} u'.
Proof.
  refine (proj1 (@X13_account_rows_persist
            [POST_purchase_gold (buy 1 60) "2024-01-01T00:00:00";
             POST_purchase_gold (buy 1 60) "2024-01-01T00:00:01"] alice_db)
            0%nat _ _).
  reflexivity.
Defined.

End AccountLife.

(** ** The response of a purchase *)

Section PurchaseResponseShape.

Local Open Scope Q_scope.




End PurchaseResponseShape.


(** ** Reads *)

Section Reads.

(** X15. Reads leave no trace: the database after serving a list of
    requests is the database after serving only its create-user and
    purchase requests, so profile reads, assistant calls and health checks
    can be interleaved anywhere without changing what the writes do. *)
Theorem X15_reads_transparent reqs : forall s,
  snd (serve reqs s) = snd (serve (filter writes reqs) s).
Proof.
  induction reqs as [|r reqs IH]; intros s; [reflexivity|].
  rewrite serve_cons. cbn [snd filter].
  destruct r as [req|uid|req|req utcnow|]; cbn [writes];
    rewrite ?serve_cons; cbn [snd]; rewrite handle_state; apply IH.
Qed.

End Reads.
